(** * notes-app: the note collection and its request handlers

    A shallow embedding of [src/types/notes.ts], [src/routes/notes.ts] and
    [src/routes/notes_mit_kommentaren.ts], and the properties of the note
    store stated over it.

    The two route files export a router of the same name; they are kept apart
    here as [NotesMitKommentaren] (the commented router, which inlines the
    store operations and has no authentication middleware) and [NotesRoutes]
    (the router behind [hasAuthentication], which calls [services/data]). *)

From Stdlib Require Import List ZArith Lia Bool String Permutation.
Import ListNotations.
Local Open Scope Z_scope.

(* ------------------------------------------------------------------ *)
(** ** JavaScript values used by the handlers *)

(** The numbers the handlers meet: [parseInt(req.params.id)] is an integer or
    [NaN], and [oldNotes.length + 1] is an integer. *)
Inductive number : Type :=
  | Int (z : Z)
  | NaN.

(** [a === b] on numbers: [NaN] is equal to nothing, itself included. *)
Definition strict_eq (a b : number) : bool :=
  match a, b with
  | Int x, Int y => x =? y
  | _, _ => false
  end.

(** [a !== b]. *)
Definition strict_neq (a b : number) : bool := negb (strict_eq a b).

Infix "===" := strict_eq (at level 45, no associativity).
Infix "!==" := strict_neq (at level 45, no associativity).

(** A property read from [req.body], or a field of a note as it is at run
    time: a string, or [None] for [undefined] (the property was not sent). *)
Definition field : Type := option string.

(** [a ?? b]. *)
Definition nullish {A : Type} (a : option A) (b : option A) : option A :=
  match a with
  | Some v => Some v
  | None => b
  end.

Infix "??" := nullish (at level 60, right associativity).

(** [f === user] for a note field [f] and a credential string [user]. *)
Definition field_is (f : field) (user : string) : bool :=
  match f with
  | Some u => String.eqb u user
  | None => false
  end.

(* ------------------------------------------------------------------ *)
(** ** [src/types/notes.ts] *)

Module Note.
(** [class Note]; [Note.new id title content user] is
    [new Note(id, title, content, user)]. *)
Record t : Type := new {
  id : number;
  title : field;
  content : field;
  user : field
}.
End Note.

Abbreviation Note := Note.t.

(** [req.body] of the create and update requests. *)
Record Body : Type := mkBody {
  body_title : field;
  body_content : field;
  body_user : field
}.

(** What a handler sends. The two "not found" texts are the template strings
    of the handlers, which name the requested id. *)
Inductive Sent : Type :=
  | NoContent
  | SentNote (n : Note)
  | SentNotes (ns : list Note)
  | WurdeNichtGefunden (id : number)
  | WasNotFound (id : number).

Record Response : Type := mkResponse {
  status : Z;
  sent : Sent
}.

(* ------------------------------------------------------------------ *)
(** ** The store and the computations over it *)

(** The persisted collection ([NotesRaw.notes]). *)
Definition Store : Type := list Note.

(** A computation that reads and overwrites the store. *)
Definition IO (A : Type) : Type := Store -> A * Store.

Definition ret {A : Type} (a : A) : IO A := fun s => (a, s).

Definition bind {A B : Type} (m : IO A) (k : A -> IO B) : IO B :=
  fun s => let (a, s') := m s in k a s'.

Declare Scope io_scope.
Delimit Scope io_scope with io.
Notation "x <- m ;; k" := (bind m (fun x => k))
  (at level 61, m at next level, right associativity) : io_scope.
Notation "m ;; k" := (bind m (fun _ => k))
  (at level 61, right associativity) : io_scope.
Local Open Scope io_scope.

(** The response and the store a handler leaves. *)
Definition response {A : Type} (r : A * Store) : A := fst r.
Definition store_after {A : Type} (r : A * Store) : Store := snd r.

(* ------------------------------------------------------------------ *)
(** ** [services/data] *)

Module Data.

(** Modelled from the spec: [getNotes] of [services/data], which is not
    among the sources. "[list()]: returns every note currently held ...
    Side effect: none (read-only)". *)
Definition getNotes : IO (list Note) := fun s => (s, s).

(** Modelled from the spec: [writeNotesToFile] of [services/data], which is
    not among the sources. "the entire collection is serialized and
    overwritten as a single unit on every mutating operation". *)
Definition writeNotesToFile (notes : list Note) : IO unit :=
  fun _ => (tt, notes).

(** Modelled from the spec: [getNoteById] of [services/data], which is not
    among the sources. "[getById(id)]: returns the unique note with that
    id, or signals not found -- never throws for a missing id". The lookup
    is the one [GET /:id] of the commented router writes out:
    [notes.find(note => note.id === id)]. *)
Definition getNoteById (id : number) : IO (option Note) :=
  notes <- getNotes ;;
  ret (find (fun note => Note.id note === id) notes).

End Data.

Import Data.

(* ------------------------------------------------------------------ *)
(** ** [src/routes/notes_mit_kommentaren.ts] *)

Module NotesMitKommentaren.

(** [notesRouter.post('/')]. [oldNotes.push(newNote)] extends the array that
    is then written back. *)
Definition post (body : Body) : IO Response :=
  let title := body_title body in
  let content := body_content body in
  let user := body_user body in
  oldNotes <- getNotes ;;
  let id := Int (Z.of_nat (List.length oldNotes) + 1) in
  let newNote := Note.new id title content user in
  let oldNotes := oldNotes ++ [newNote] in
  writeNotesToFile oldNotes ;;
  ret (mkResponse 204 NoContent).

(** [notesRouter.get('/')]: every saved note. *)
Definition get_all : IO Response :=
  notes <- getNotes ;;
  ret (mkResponse 200 (SentNotes notes)).

(** [notesRouter.get('/:id')]; [id] is [parseInt(req.params.id)]. *)
Definition get (id : number) : IO Response :=
  notes <- getNotes ;;
  let note := find (fun note => Note.id note === id) notes in
  match note with
  | None => ret (mkResponse 404 (WasNotFound id))
  | Some note => ret (mkResponse 200 (SentNote note))
  end.

(** [notesRouter.put('/:id')]. *)
Definition put (id : number) (body : Body) : IO Response :=
  let title := body_title body in
  let content := body_content body in
  let user := body_user body in
  oldNote <- getNoteById id ;;
  match oldNote with
  | None => ret (mkResponse 404 (WurdeNichtGefunden id))
  | Some _ =>
      oldNotes <- getNotes ;;
      let filteredNotes := filter (fun note => Note.id note !== id) oldNotes in
      let newNote := Note.new id title content user in
      let filteredNotes := filteredNotes ++ [newNote] in
      writeNotesToFile filteredNotes ;;
      ret (mkResponse 204 NoContent)
  end.

(** [notesRouter.patch('/:id')]. *)
Definition patch (id : number) (body : Body) : IO Response :=
  oldNote <- getNoteById id ;;
  match oldNote with
  | None => ret (mkResponse 404 (WurdeNichtGefunden id))
  | Some oldNote =>
      let title := body_title body ?? Note.title oldNote in
      let content := body_content body ?? Note.content oldNote in
      let user := body_user body ?? Note.user oldNote in
      oldNotes <- getNotes ;;
      let filteredNotes := filter (fun note => Note.id note !== id) oldNotes in
      let newNote := Note.new id title content user in
      let filteredNotes := filteredNotes ++ [newNote] in
      writeNotesToFile filteredNotes ;;
      ret (mkResponse 204 NoContent)
  end.

(** [notesRouter.delete('/:id')]. *)
Definition delete (id : number) : IO Response :=
  oldNote <- getNoteById id ;;
  match oldNote with
  | None => ret (mkResponse 404 (WurdeNichtGefunden id))
  | Some _ =>
      oldNotes <- getNotes ;;
      let filteredNotes := filter (fun note => Note.id note !== id) oldNotes in
      writeNotesToFile filteredNotes ;;
      ret (mkResponse 204 NoContent)
  end.

End NotesMitKommentaren.

(* ------------------------------------------------------------------ *)
(** ** [src/routes/notes.ts] *)

Module NotesRoutes.

Section Handlers.

(** [addNote], [updateNote] and [deleteNoteById] of [services/data] are
    not among the sources: the handlers are taken over any three
    store computations. *)
Variable addNote : field -> field -> field -> IO unit.
Variable updateNote : number -> field -> field -> field -> IO unit.
Variable deleteNoteById : number -> IO unit.

(** [notesRouter.post('/')]. *)
Definition post (body : Body) : IO Response :=
  let title := body_title body in
  let content := body_content body in
  let user := body_user body in
  addNote title content user ;;
  ret (mkResponse 204 NoContent).

(** [notesRouter.get('/')]; [user] is [req.headers.authorization]. *)
Definition get_all (user : string) : IO Response :=
  all <- getNotes ;;
  let notes := filter (fun note => field_is (Note.user note) user) all in
  ret (mkResponse 200 (SentNotes notes)).

(** [notesRouter.get('/:id')]. *)
Definition get (id : number) : IO Response :=
  note <- getNoteById id ;;
  match note with
  | None => ret (mkResponse 404 (WurdeNichtGefunden id))
  | Some note => ret (mkResponse 200 (SentNote note))
  end.

(** [notesRouter.put('/:id')]. *)
Definition put (id : number) (body : Body) : IO Response :=
  let title := body_title body in
  let content := body_content body in
  let user := body_user body in
  oldNote <- getNoteById id ;;
  match oldNote with
  | None => ret (mkResponse 404 (WurdeNichtGefunden id))
  | Some _ =>
      updateNote id title content user ;;
      ret (mkResponse 204 NoContent)
  end.

(** [notesRouter.patch('/:id')]. *)
Definition patch (id : number) (body : Body) : IO Response :=
  oldNote <- getNoteById id ;;
  match oldNote with
  | None => ret (mkResponse 404 (WurdeNichtGefunden id))
  | Some oldNote =>
      let title := body_title body ?? Note.title oldNote in
      let content := body_content body ?? Note.content oldNote in
      let user := body_user body ?? Note.user oldNote in
      updateNote id title content user ;;
      ret (mkResponse 204 NoContent)
  end.

(** [notesRouter.delete('/:id')]. *)
Definition delete (id : number) : IO Response :=
  oldNote <- getNoteById id ;;
  match oldNote with
  | None => ret (mkResponse 404 (WurdeNichtGefunden id))
  | Some _ =>
      deleteNoteById id ;;
      ret (mkResponse 204 NoContent)
  end.

End Handlers.

End NotesRoutes.

(* ------------------------------------------------------------------ *)
(** ** Request sequences *)

(** The mutating requests of the commented router. *)
Inductive Request : Type :=
  | POST (body : Body)
  | PUT (id : number) (body : Body)
  | PATCH (id : number) (body : Body)
  | DELETE (id : number).

Definition handle (r : Request) : IO Response :=
  match r with
  | POST body => NotesMitKommentaren.post body
  | PUT id body => NotesMitKommentaren.put id body
  | PATCH id body => NotesMitKommentaren.patch id body
  | DELETE id => NotesMitKommentaren.delete id
  end.

(** The requests served one after the other, oldest first. *)
Fixpoint serve (rs : list Request) : IO (list Response) :=
  match rs with
  | [] => ret []
  | r :: rs =>
      a <- handle r ;;
      l <- serve rs ;;
      ret (a :: l)
  end.

(** The stores that requests can build from the empty collection. *)
Definition reachable (s : Store) : Prop :=
  exists rs, store_after (serve rs []) = s.

Definition is_DELETE (r : Request) : bool :=
  match r with
  | DELETE _ => true
  | _ => false
  end.

(** The store holds a note of that id. *)
Definition holds (s : Store) (id : number) : Prop :=
  exists note, In note s /\ Note.id note === id = true.

(** The notes of the store other than those of that id, in store order. *)
Definition others (id : number) (s : Store) : list Note :=
  filter (fun note => Note.id note !== id) s.

(** The empty request body. *)
Definition no_fields : Body := mkBody None None None.

(** Notes a response carries in its body. *)
Definition sent_notes (r : Response) : list Note :=
  match sent r with
  | SentNotes ns => ns
  | SentNote n => [n]
  | _ => []
  end.

(** A list handler answers with exactly the stored notes of the credential:
    all it sends are owned by [U], and every stored note owned by [U] is
    sent. *)
Definition lists_exactly_own (list_notes : string -> IO Response) : Prop :=
  forall (U : string) (s : Store) (note : Note),
    In note (sent_notes (response (list_notes U s)))
    <-> In note s /\ Note.user note = Some U.

(** Sample data of the end-to-end cases. *)
Definition note_A : Note :=
  Note.new (Int 1) (Some "A"%string) (Some "B"%string) (Some "u1"%string).
Definition note_C : Note :=
  Note.new (Int 2) (Some "C"%string) None (Some "u2"%string).
Definition two_notes : Store := [note_A; note_C].
Definition body_C2 : Body := mkBody None (Some "C2"%string) None.
Definition body_A : Body :=
  mkBody (Some "A"%string) (Some "B"%string) (Some "u1"%string).
Definition body_D : Body :=
  mkBody (Some "D"%string) (Some "E"%string) (Some "u1"%string).
Definition body_F : Body :=
  mkBody (Some "F"%string) (Some "G"%string) (Some "u2"%string).

(** Create twice, delete the first note, create again. *)
Definition create_after_delete : list Request :=
  [POST body_A; POST body_D; DELETE (Int 1); POST body_F].

(** The ids of the stored notes, in store order. *)
Definition ids (s : Store) : list number := map Note.id s.

(** The ids 1, ..., n. *)
Definition first_ids (n : nat) : list number :=
  map (fun k => Int (Z.of_nat k)) (seq 1 n).

(** Store mutators that throw the collection away, to run the handlers of
    [NotesRoutes] with. *)
Definition forget4 (_ : number) (_ _ _ : field) : IO unit := writeNotesToFile [].
Definition forget1 (_ : number) : IO unit := writeNotesToFile [].


(** The note [new Note(id, title, content, user)] built from a body. *)
Definition rebuilt (id : number) (body : Body) : Note :=
  Note.new id (body_title body) (body_content body) (body_user body).

(** The body of a partial update with every omitted property taken from the
    found note, as [PATCH /:id] computes [title], [content] and [user]. *)
Definition completed (body : Body) (oldNote : Note) : Body :=
  mkBody (body_title body ?? Note.title oldNote)
         (body_content body ?? Note.content oldNote)
         (body_user body ?? Note.user oldNote).

(** How many of the requests are creates. *)
Definition posts (rs : list Request) : nat :=
  List.length (filter (fun r => match r with POST _ => true | _ => false end) rs).

(** The notes the list handler of [NotesRoutes] selects for a credential. *)
Definition own (user : string) (s : Store) : list Note :=
  filter (fun note => field_is (Note.user note) user) s.

(** The ids of the store are integers between 1 and [p], and the store has
    at most [p] notes. *)
Definition bounded_by (p : nat) (s : Store) : Prop :=
  (List.length s <= p)%nat
  /\ forall note, In note s ->
       exists z, Note.id note = Int z /\ 1 <= z <= Z.of_nat p.



(** A body without the user property. *)
Definition body_no_user : Body :=
  mkBody (Some "T"%string) (Some "X"%string) None.

(** A store whose only note already has the id the next create assigns. *)
Definition taken_store : Store := [note_C].

(* ------------------------------------------------------------------ *)
(** ** Strict equality and lookup *)

Lemma strict_eq_true (a b : number) :
  a === b = true <-> exists z, a = Int z /\ b = Int z.
Proof.
  destruct a as [x|], b as [y|]; simpl; split; intros H;
    try discriminate; try (destruct H as (z & H1 & H2); discriminate).
  - apply Z.eqb_eq in H. subst y. now exists x.
  - destruct H as (z & H1 & H2). inversion H1; inversion H2; subst.
    apply Z.eqb_refl.
Qed.

Lemma strict_eq_eq (a b : number) : a === b = true -> a = b.
Proof.
  intros H. apply strict_eq_true in H. destruct H as (z & -> & ->). reflexivity.
Qed.

Lemma number_eq_dec (a b : number) : {a = b} + {a <> b}.
Proof. decide equality. apply Z.eq_dec. Defined.

Lemma strict_eq_NaN_r (a : number) : a === NaN = false.
Proof. destruct a; reflexivity. Qed.

Lemma strict_eq_trans_false (a i j : number) :
  i <> j -> a === j = true -> a === i = false.
Proof.
  intros Hij Hj. destruct (a === i) eqn:Hi; [|reflexivity].
  apply strict_eq_eq in Hi, Hj. congruence.
Qed.

Lemma bind_run {A B : Type} (m : IO A) (k : A -> IO B) (s s' : Store) (a : A) :
  m s = (a, s') -> bind m k s = k a s'.
Proof. intros E. unfold bind. now rewrite E. Qed.

Lemma getNoteById_eq (id : number) (s : Store) :
  getNoteById id s = (find (fun note => Note.id note === id) s, s).
Proof. reflexivity. Qed.

Lemma find_others_same (id : number) (s : Store) :
  find (fun note => Note.id note === id) (others id s) = None.
Proof.
  induction s as [|a s IH]; simpl; [reflexivity|].
  unfold strict_neq. destruct (Note.id a === id) eqn:E; simpl; [exact IH|].
  now rewrite E.
Qed.

Lemma find_others_other (id j : number) (s : Store) :
  id <> j ->
  find (fun note => Note.id note === j) (others id s)
  = find (fun note => Note.id note === j) s.
Proof.
  intros Hij. induction s as [|a s IH]; simpl; [reflexivity|].
  unfold strict_neq. destruct (Note.id a === j) eqn:Ej.
  - rewrite (strict_eq_trans_false _ _ _ Hij Ej). simpl. now rewrite Ej.
  - destruct (Note.id a === id); simpl; [exact IH|]. now rewrite Ej.
Qed.

Lemma find_app {A : Type} (p : A -> bool) (l1 l2 : list A) :
  find p (l1 ++ l2)
  = match find p l1 with Some x => Some x | None => find p l2 end.
Proof.
  induction l1 as [|a l1 IH]; simpl; [reflexivity|].
  destruct (p a); [reflexivity|exact IH].
Qed.

Lemma holds_find (s : Store) (id : number) :
  holds s id <-> exists old, find (fun note => Note.id note === id) s = Some old.
Proof.
  split.
  - intros (n & Hin & Hid).
    destruct (find (fun note => Note.id note === id) s) as [old|] eqn:E.
    + now exists old.
    + pose proof (find_none _ _ E n Hin) as H. simpl in H. congruence.
  - intros (old & E). apply find_some in E. now exists old.
Qed.

Lemma not_holds_find (s : Store) (id : number) :
  ~ holds s id -> find (fun note => Note.id note === id) s = None.
Proof.
  intros H. destruct (find (fun note => Note.id note === id) s) as [old|] eqn:E;
    [|reflexivity].
  exfalso. apply H. apply holds_find. now exists old.
Qed.

Lemma others_all (id : number) (s : Store) :
  ~ holds s id -> others id s = s.
Proof.
  intros H. induction s as [|a s IH]; simpl; [reflexivity|].
  unfold strict_neq. destruct (Note.id a === id) eqn:E; simpl.
  - exfalso. apply H. exists a. split; [now left|exact E].
  - f_equal. apply IH. intros (n & Hin & Hn). apply H. exists n.
    split; [now right|exact Hn].
Qed.

Lemma others_idem (id : number) (s : Store) :
  others id (others id s) = others id s.
Proof.
  unfold others. induction s as [|a s IH]; simpl; [reflexivity|].
  destruct (Note.id a !== id) eqn:E; simpl; [rewrite E; f_equal|]; exact IH.
Qed.

Lemma not_holds_others (id : number) (s : Store) : ~ holds (others id s) id.
Proof.
  intros (n & Hin & Hid). unfold others in Hin. apply filter_In in Hin.
  destruct Hin as [_ Hne]. unfold strict_neq in Hne. rewrite Hid in Hne.
  discriminate.
Qed.

(* ------------------------------------------------------------------ *)
(** ** What each handler of the commented router computes *)

Section Runs.

Import NotesMitKommentaren.

Variables (id : number) (body : Body) (s : Store).

Lemma post_run :
  post body s
  = (mkResponse 204 NoContent,
     s ++ [Note.new (Int (Z.of_nat (List.length s) + 1))
             (body_title body) (body_content body) (body_user body)]).
Proof. reflexivity. Qed.

Lemma put_missing :
  find (fun note => Note.id note === id) s = None ->
  put id body s = (mkResponse 404 (WurdeNichtGefunden id), s).
Proof. intros E. unfold put, bind. rewrite getNoteById_eq, E. reflexivity. Qed.

Lemma patch_missing :
  find (fun note => Note.id note === id) s = None ->
  patch id body s = (mkResponse 404 (WurdeNichtGefunden id), s).
Proof. intros E. unfold patch, bind. rewrite getNoteById_eq, E. reflexivity. Qed.

Lemma delete_missing :
  find (fun note => Note.id note === id) s = None ->
  delete id s = (mkResponse 404 (WurdeNichtGefunden id), s).
Proof. intros E. unfold delete, bind. rewrite getNoteById_eq, E. reflexivity. Qed.

Variable old : Note.
Hypothesis found : find (fun note => Note.id note === id) s = Some old.

Lemma put_found :
  put id body s
  = (mkResponse 204 NoContent,
     others id s
     ++ [Note.new id (body_title body) (body_content body) (body_user body)]).
Proof. unfold put, bind. rewrite getNoteById_eq, found. reflexivity. Qed.

Lemma patch_found :
  patch id body s
  = (mkResponse 204 NoContent,
     others id s
     ++ [Note.new id (body_title body ?? Note.title old)
           (body_content body ?? Note.content old)
           (body_user body ?? Note.user old)]).
Proof. unfold patch, bind. rewrite getNoteById_eq, found. reflexivity. Qed.

Lemma delete_found :
  delete id s = (mkResponse 204 NoContent, others id s).
Proof. unfold delete, bind. rewrite getNoteById_eq, found. reflexivity. Qed.

Lemma found_id : Note.id old = id.
Proof. apply find_some in found. apply strict_eq_eq. apply found. Qed.

Lemma found_self : id === id = true.
Proof.
  pose proof found as F. apply find_some in F. destruct F as [_ F].
  simpl in F. rewrite found_id in F. exact F.
Qed.

End Runs.

(* ------------------------------------------------------------------ *)
(** ** Further facts about the stores the updates leave *)

Lemma strict_eq_false_of_neq (a b : number) : a <> b -> a === b = false.
Proof.
  intros H. destruct (a === b) eqn:E; [|reflexivity].
  apply strict_eq_eq in E. contradiction.
Qed.


(** The store [others id s ++ [note]] that a successful update writes, seen
    through lookups, when [note] carries the id [id]. *)
Section Rebuilt.

Variables (id : number) (s : Store) (note : Note).
Hypothesis note_id : Note.id note = id.
Hypothesis self : id === id = true.

Lemma rebuilt_lookup :
  find (fun n => Note.id n === id) (others id s ++ [note]) = Some note.
Proof.
  rewrite find_app, find_others_same. simpl. now rewrite note_id, self.
Qed.

Lemma rebuilt_lookup_other (j : number) :
  j <> id ->
  find (fun n => Note.id n === j) (others id s ++ [note])
  = find (fun n => Note.id n === j) s.
Proof.
  intros Hj. rewrite find_app, find_others_other by congruence.
  destruct (find (fun n => Note.id n === j) s); [reflexivity|].
  simpl. rewrite note_id, strict_eq_false_of_neq by congruence. reflexivity.
Qed.

Lemma rebuilt_others : others id (others id s ++ [note]) = others id s.
Proof.
  unfold others at 1. rewrite filter_app. fold (others id (others id s)).
  rewrite others_idem. simpl. unfold strict_neq.
  rewrite note_id, self. simpl. apply app_nil_r.
Qed.



End Rebuilt.

(** With distinct ids, the notes other than those of an id are the store
    with the one found note taken out. *)
Lemma others_split (id : number) (old : Note) (s : Store) :
  NoDup (ids s) ->
  find (fun n => Note.id n === id) s = Some old ->
  exists before after,
    s = before ++ old :: after /\ others id s = before ++ after.
Proof.
  intros ND F. induction s as [|a s IH]; [discriminate|].
  cbn [ids map] in ND. inversion ND as [|x l Hnotin ND']; subst x l.
  cbn [find] in F.
  change (others id (a :: s))
    with (if Note.id a !== id then a :: others id s else others id s).
  unfold strict_neq. destruct (Note.id a === id) eqn:E; cbn [negb].
  - injection F as <-. exists [], s. split; [reflexivity|].
    apply others_all. intros (n & Hin & Hn). apply Hnotin.
    apply strict_eq_eq in E, Hn. rewrite E, <- Hn. now apply in_map.
  - destruct (IH ND' F) as (before & after & -> & ->).
    now exists (a :: before), after.
Qed.

Lemma record_eta (n : Note) :
  Note.new (Note.id n) (Note.title n) (Note.content n) (Note.user n) = n.
Proof. now destruct n. Qed.

Lemma delete_status (id : number) (s : Store) :
  status (response (NotesMitKommentaren.delete id s)) = 204 ->
  exists old, find (fun note => Note.id note === id) s = Some old.
Proof.
  destruct (find (fun note => Note.id note === id) s) as [old|] eqn:E.
  - intros _. now exists old.
  - rewrite (delete_missing _ _ E). simpl. discriminate.
Qed.

Lemma field_is_true (f : field) (U : string) :
  field_is f U = true <-> f = Some U.
Proof.
  destruct f as [u|]; simpl.
  - rewrite String.eqb_eq. split; congruence.
  - split; discriminate.
Qed.

Lemma filter_Permutation {A : Type} (p : A -> bool) (l1 l2 : list A) :
  Permutation l1 l2 -> Permutation (filter p l1) (filter p l2).
Proof.
  induction 1 as [|x l l' _ IH|x y l|l l' l'' _ IH1 _ IH2]; simpl.
  - constructor.
  - destruct (p x); [constructor|]; exact IH.
  - destruct (p x), (p y); try apply Permutation_refl. constructor.
  - now transitivity (filter p l').
Qed.

(* ------------------------------------------------------------------ *)
(** ** Create *)

(** C2: on every store, create gives the new note the id "number of stored
    notes plus one", appends it to the collection, and the note carries the
    title, content and user of the request body; the answer is 204. *)
Theorem post_appends_note_numbered_by_count (body : Body) (s : Store) :
  exists note,
    store_after (NotesMitKommentaren.post body s) = s ++ [note]
    /\ Note.id note = Int (Z.of_nat (List.length s) + 1)
    /\ Note.title note = body_title body
    /\ Note.content note = body_content body
    /\ Note.user note = body_user body
    /\ response (NotesMitKommentaren.post body s) = mkResponse 204 NoContent.
Proof.
  rewrite post_run. eexists. split; [reflexivity|]. simpl. repeat split.
Qed.

(* ------------------------------------------------------------------ *)
(** ** Full and partial update *)




(** C4: when the store holds a note of the id, a partial update with an empty
    body answers 204 and is the full update that saves the found note's own
    fields again: the store becomes the other notes followed by the found
    note itself, and every id looks up the same note as before. *)
Theorem patch_without_fields_resaves (id : number) (s : Store) :
  holds s id ->
  let s' := store_after (NotesMitKommentaren.patch id no_fields s) in
  response (NotesMitKommentaren.patch id no_fields s) = mkResponse 204 NoContent
  /\ (exists old,
        response (getNoteById id s) = Some old
        /\ s' = others id s ++ [old]
        /\ NotesMitKommentaren.patch id no_fields s
           = NotesMitKommentaren.put id
               (mkBody (Note.title old) (Note.content old) (Note.user old)) s)
  /\ (forall j, response (getNoteById j s') = response (getNoteById j s)).
Proof.
  intros H. apply holds_find in H. destruct H as (old & F).
  pose proof (found_self _ _ _ F) as self.
  pose proof (found_id _ _ _ F) as Hid.
  assert (E : NotesMitKommentaren.patch id no_fields s
              = (mkResponse 204 NoContent, others id s ++ [old])).
  { rewrite (patch_found _ no_fields _ _ F). cbn [no_fields body_title
      body_content body_user nullish]. rewrite <- Hid at 2.
    now rewrite record_eta. }
  cbn zeta. rewrite E. unfold store_after, response. cbn [fst snd].
  split; [reflexivity|]. split.
  - exists old. rewrite getNoteById_eq. cbn [fst].
    split; [exact F|]. split; [reflexivity|].
    rewrite (put_found _ _ _ _ F). cbn [body_title body_content body_user].
    rewrite <- Hid at 3. now rewrite record_eta.
  - intros j. rewrite !getNoteById_eq. cbn [fst].
    destruct (number_eq_dec j id) as [->|Hj].
    + rewrite F. now apply rebuilt_lookup.
    + now apply rebuilt_lookup_other.
Qed.

Lemma patch_without_fields_resaves_witness :
  holds two_notes (Int 2)
  /\ store_after (NotesMitKommentaren.patch (Int 2) no_fields two_notes)
     = [note_A; note_C]
  /\ response (getNoteById (Int 1)
       (store_after (NotesMitKommentaren.patch (Int 2) no_fields two_notes)))
     = Some note_A.
Proof.
  assert (H : holds two_notes (Int 2)).
  { exists note_C. split; [right; now left|reflexivity]. }
  split; [exact H|]. split; [reflexivity|].
  destruct (patch_without_fields_resaves (Int 2) two_notes H) as (_ & _ & K).
  rewrite K. reflexivity.
Defined.

(** C9: when the lookup of the id finds a note, a partial update answers 204
    and the note then found under the id has the same id, each field the body
    supplies set to the supplied value, and each field the body omits equal
    to the found note's value. *)
Theorem patch_sets_supplied_keeps_omitted
    (id : number) (body : Body) (s : Store) (old : Note) :
  response (getNoteById id s) = Some old ->
  response (NotesMitKommentaren.patch id body s) = mkResponse 204 NoContent
  /\ exists note,
       response (getNoteById id
         (store_after (NotesMitKommentaren.patch id body s))) = Some note
       /\ Note.id note = Note.id old
       /\ (forall v, body_title body = Some v -> Note.title note = Some v)
       /\ (body_title body = None -> Note.title note = Note.title old)
       /\ (forall v, body_content body = Some v -> Note.content note = Some v)
       /\ (body_content body = None -> Note.content note = Note.content old)
       /\ (forall v, body_user body = Some v -> Note.user note = Some v)
       /\ (body_user body = None -> Note.user note = Note.user old).
Proof.
  rewrite getNoteById_eq. cbn [response fst]. intros F.
  pose proof (found_self _ _ _ F) as self.
  rewrite (patch_found _ body _ _ F). unfold store_after, response.
  cbn [fst snd]. split; [reflexivity|].
  eexists. rewrite getNoteById_eq. cbn [fst].
  split; [now apply rebuilt_lookup|].
  cbn [Note.id Note.title Note.content Note.user].
  split; [symmetry; exact (found_id _ _ _ F)|].
  repeat split; intros; match goal with
    | H : _ = _ |- _ => rewrite H; reflexivity
    end.
Qed.

Lemma patch_sets_supplied_keeps_omitted_witness :
  response (getNoteById (Int 1) two_notes) = Some note_A
  /\ exists note,
       response (getNoteById (Int 1)
         (store_after (NotesMitKommentaren.patch (Int 1) body_C2 two_notes)))
       = Some note
       /\ Note.title note = Some "A"%string
       /\ Note.content note = Some "C2"%string
       /\ Note.user note = Some "u1"%string.
Proof.
  split; [reflexivity|].
  destruct (patch_sets_supplied_keeps_omitted (Int 1) body_C2 two_notes note_A
              eq_refl) as (_ & note & L & _ & _ & T & C & _ & _ & U).
  exists note. split; [exact L|].
  split; [exact (T eq_refl)|]. split; [exact (C _ eq_refl)|exact (U eq_refl)].
Defined.

(** C10: when the lookup of the id finds a note, full update and partial
    update both write the previous collection without the notes of that id,
    followed by the rebuilt note as last element. *)
Theorem update_moves_note_to_the_end
    (id : number) (body : Body) (s : Store) (old : Note) :
  response (getNoteById id s) = Some old ->
  store_after (NotesMitKommentaren.put id body s)
  = filter (fun note => Note.id note !== id) s
    ++ [Note.new id (body_title body) (body_content body) (body_user body)]
  /\ store_after (NotesMitKommentaren.patch id body s)
     = filter (fun note => Note.id note !== id) s
       ++ [Note.new id (body_title body ?? Note.title old)
             (body_content body ?? Note.content old)
             (body_user body ?? Note.user old)].
Proof.
  rewrite getNoteById_eq. cbn [response fst]. intros F.
  rewrite (put_found _ body _ _ F), (patch_found _ body _ _ F).
  split; reflexivity.
Qed.

Lemma update_moves_note_to_the_end_witness :
  response (getNoteById (Int 1) two_notes) = Some note_A
  /\ store_after (NotesMitKommentaren.put (Int 1) body_C2 two_notes)
     = [note_C; Note.new (Int 1) None (Some "C2"%string) None]
  /\ store_after (NotesMitKommentaren.patch (Int 1) body_C2 two_notes)
     = [note_C; Note.new (Int 1) (Some "A"%string) (Some "C2"%string)
                  (Some "u1"%string)].
Proof.
  split; [reflexivity|].
  exact (update_moves_note_to_the_end (Int 1) body_C2 two_notes note_A eq_refl).
Defined.

(* ------------------------------------------------------------------ *)
(** ** Delete and lookup of a missing id *)

(** C5: when delete answers 204, the lookup of that id in the store it
    leaves finds nothing, no note listed from that store has the id, reading
    the id answers 404, and a second delete of the id answers 404 and changes
    nothing: two deletes in a row answer 204 then 404. *)
Theorem delete_then_absent (id : number) (s : Store) :
  status (response (NotesMitKommentaren.delete id s)) = 204 ->
  let s' := store_after (NotesMitKommentaren.delete id s) in
  response (getNoteById id s') = None
  /\ (forall note, In note (response (getNotes s')) -> Note.id note <> id)
  /\ ~ holds s' id
  /\ response (NotesMitKommentaren.get id s') = mkResponse 404 (WasNotFound id)
  /\ NotesMitKommentaren.delete id s'
     = (mkResponse 404 (WurdeNichtGefunden id), s')
  /\ map status (response (serve [DELETE id; DELETE id] s)) = [204; 404].
Proof.
  intros H. apply delete_status in H. destruct H as (old & F).
  pose proof (found_self _ _ _ F) as self.
  assert (E : NotesMitKommentaren.delete id (others id s)
              = (mkResponse 404 (WurdeNichtGefunden id), others id s)).
  { apply delete_missing, find_others_same. }
  cbn zeta. rewrite (delete_found _ _ _ F). unfold store_after. cbn [snd].
  split; [rewrite getNoteById_eq; apply find_others_same|].
  split.
  { intros note Hin Hid. apply (not_holds_others id s). exists note.
    split; [exact Hin|]. now rewrite Hid. }
  split; [apply not_holds_others|].
  split.
  { unfold NotesMitKommentaren.get, bind, getNotes.
    now rewrite find_others_same. }
  split; [exact E|].
  cbn [serve handle].
  rewrite (bind_run _ _ _ _ _ (delete_found _ _ _ F)).
  unfold bind. rewrite E. reflexivity.
Qed.

Lemma delete_then_absent_witness :
  status (response (NotesMitKommentaren.delete (Int 1) two_notes)) = 204
  /\ map status (response (serve [DELETE (Int 1); DELETE (Int 1)] two_notes))
     = [204; 404]
  /\ response (getNoteById (Int 1)
       (store_after (NotesMitKommentaren.delete (Int 1) two_notes))) = None.
Proof.
  split; [reflexivity|].
  destruct (delete_then_absent (Int 1) two_notes eq_refl)
    as (A & _ & _ & _ & _ & B).
  split; [exact B|exact A].
Defined.

(** C7: when no stored note has the id, the lookup returns the absent value
    as its result and leaves the store as it was, and reading the id answers
    404 with the text naming the id, in both routers. *)
Theorem getNoteById_of_unassigned_id (id : number) (s : Store) :
  (forall note, In note s -> Note.id note <> id) ->
  getNoteById id s = (None, s)
  /\ NotesMitKommentaren.get id s = (mkResponse 404 (WasNotFound id), s)
  /\ NotesRoutes.get id s = (mkResponse 404 (WurdeNichtGefunden id), s).
Proof.
  intros H.
  assert (F : find (fun note => Note.id note === id) s = None).
  { apply not_holds_find. intros (n & Hin & Hn).
    apply (H n Hin). now apply strict_eq_eq. }
  split; [|split].
  - rewrite getNoteById_eq. now rewrite F.
  - unfold NotesMitKommentaren.get, bind, getNotes. now rewrite F.
  - unfold NotesRoutes.get, bind. rewrite getNoteById_eq. now rewrite F.
Qed.

Lemma getNoteById_of_unassigned_id_witness :
  (forall note, In note two_notes -> Note.id note <> Int 999)
  /\ getNoteById (Int 999) two_notes = (None, two_notes)
  /\ NotesMitKommentaren.get (Int 999) []
     = (mkResponse 404 (WasNotFound (Int 999)), []).
Proof.
  assert (H : forall note, In note two_notes -> Note.id note <> Int 999).
  { intros note [<-|[<-|[]]]; discriminate. }
  split; [exact H|]. split.
  - exact (proj1 (getNoteById_of_unassigned_id (Int 999) two_notes H)).
  - apply (getNoteById_of_unassigned_id (Int 999) []). intros note [].
Defined.

(** C8: when the store holds no note of the requested id, full update,
    partial update and delete answer 404 and the store is the one they were
    given; in [NotesRoutes] this holds whatever [updateNote] and
    [deleteNoteById] do, since they are not called. *)
Theorem missing_id_answers_404_without_writing
    (updateNote : number -> field -> field -> field -> IO unit)
    (deleteNoteById : number -> IO unit)
    (id : number) (body : Body) (s : Store) :
  ~ holds s id ->
  let not_found := (mkResponse 404 (WurdeNichtGefunden id), s) in
  NotesRoutes.put updateNote id body s = not_found
  /\ NotesRoutes.patch updateNote id body s = not_found
  /\ NotesRoutes.delete deleteNoteById id s = not_found
  /\ NotesMitKommentaren.put id body s = not_found
  /\ NotesMitKommentaren.patch id body s = not_found
  /\ NotesMitKommentaren.delete id s = not_found.
Proof.
  intros H. apply not_holds_find in H. cbn zeta.
  repeat split;
    try (unfold NotesRoutes.put, NotesRoutes.patch, NotesRoutes.delete, bind;
         rewrite getNoteById_eq, H; reflexivity).
  - now apply put_missing.
  - now apply patch_missing.
  - now apply delete_missing.
Qed.

Lemma missing_id_answers_404_without_writing_witness :
  ~ holds two_notes NaN
  /\ NotesRoutes.put forget4 NaN body_A two_notes
     = (mkResponse 404 (WurdeNichtGefunden NaN), two_notes)
  /\ NotesRoutes.delete forget1 (Int 3) two_notes
     = (mkResponse 404 (WurdeNichtGefunden (Int 3)), two_notes)
  /\ store_after (NotesRoutes.delete forget1 (Int 2) two_notes) = [].
Proof.
  assert (H : ~ holds two_notes NaN).
  { intros (n & _ & Hn). rewrite strict_eq_NaN_r in Hn. discriminate. }
  assert (K : ~ holds two_notes (Int 3)).
  { intros (n & [<-|[<-|[]]] & Hn); discriminate. }
  split; [exact H|]. split; [|split].
  - exact (proj1 (missing_id_answers_404_without_writing
                    forget4 forget1 NaN body_A two_notes H)).
  - exact (proj1 (proj2 (proj2 (missing_id_answers_404_without_writing
                    forget4 forget1 (Int 3) body_A two_notes K)))).
  - reflexivity.
Defined.

(* ------------------------------------------------------------------ *)
(** ** List *)

(** C6, as amended: the list handler of [NotesRoutes] answers 200 with the
    stored notes whose user is the credential, in store order; a note is sent
    exactly when it is stored and owned by the credential, and reordering the
    store only reorders the answer. The list handler of the commented router
    answers 200 with every stored note. *)
Theorem get_all_lists_the_notes_of_the_credential :
  lists_exactly_own NotesRoutes.get_all
  /\ (forall U s,
        NotesRoutes.get_all U s
        = (mkResponse 200
             (SentNotes (filter (fun note => field_is (Note.user note) U) s)),
           s))
  /\ (forall U s1 s2,
        Permutation s1 s2 ->
        Permutation (sent_notes (response (NotesRoutes.get_all U s1)))
                    (sent_notes (response (NotesRoutes.get_all U s2))))
  /\ (forall s,
        NotesMitKommentaren.get_all s = (mkResponse 200 (SentNotes s), s)).
Proof.
  split; [|split; [|split]].
  - intros U s note. cbn. rewrite filter_In, field_is_true. reflexivity.
  - reflexivity.
  - intros U s1 s2 H. cbn. now apply filter_Permutation.
  - reflexivity.
Qed.

Lemma get_all_lists_the_notes_of_the_credential_witness :
  Permutation [note_A; note_C] [note_C; note_A]
  /\ Permutation
       (sent_notes (response (NotesRoutes.get_all "u1" [note_A; note_C])))
       (sent_notes (response (NotesRoutes.get_all "u1" [note_C; note_A]))).
Proof.
  assert (H : Permutation [note_A; note_C] [note_C; note_A]) by apply perm_swap.
  split; [exact H|].
  exact (proj1 (proj2 (proj2 get_all_lists_the_notes_of_the_credential))
           "u1"%string _ _ H).
Defined.

(** C6, as stated, fails for the list handler of the commented router: with
    the credential u1 it sends the note of u2 as well. *)
Lemma get_all_of_commented_router_sends_foreign_notes :
  In note_C
    (sent_notes (response (NotesMitKommentaren.get_all two_notes)))
  /\ Note.user note_C <> Some "u1"%string
  /\ ~ lists_exactly_own (fun _ => NotesMitKommentaren.get_all).
Proof.
  assert (H : In note_C
    (sent_notes (response (NotesMitKommentaren.get_all two_notes)))).
  { right. now left. }
  split; [exact H|]. split; [discriminate|].
  intros L. apply (L "u1"%string two_notes note_C) in H.
  destruct H as [_ H]. discriminate.
Qed.

(* ------------------------------------------------------------------ *)
(** ** Ids over request sequences *)

Lemma serve_cons_store (r : Request) (rs : list Request) (s : Store) :
  store_after (serve (r :: rs) s)
  = store_after (serve rs (store_after (handle r s))).
Proof.
  cbn [serve]. unfold bind, store_after.
  destruct (handle r s) as [a s1]. cbn [snd].
  destruct (serve rs s1) as [l s2]. reflexivity.
Qed.

Lemma first_ids_S (n : nat) :
  first_ids (S n) = first_ids n ++ [Int (Z.of_nat n + 1)].
Proof.
  unfold first_ids. rewrite seq_S, map_app. cbn [map]. do 3 f_equal. lia.
Qed.

Lemma NoDup_first_ids (n : nat) : NoDup (first_ids n).
Proof.
  unfold first_ids. apply Finite.Injective_map_NoDup; [|apply seq_NoDup].
  intros x y H. injection H as H. lia.
Qed.

(** Replacing the one note of an id by a note of the same id keeps the ids. *)
Lemma ids_rebuilt (id : number) (note old : Note) (s : Store) :
  NoDup (ids s) ->
  find (fun n => Note.id n === id) s = Some old ->
  Note.id note = id ->
  Permutation (ids (others id s ++ [note])) (ids s).
Proof.
  intros ND F Hid. induction s as [|a s IH]; [discriminate|].
  cbn [ids map] in ND. inversion ND as [|x l Hnotin ND']; subst x l.
  cbn [find] in F.
  change (others id (a :: s))
    with (if Note.id a !== id then a :: others id s else others id s).
  unfold strict_neq. destruct (Note.id a === id) eqn:E; cbn [negb].
  - assert (H : ~ holds s id).
    { intros (n & Hin & Hn). apply Hnotin.
      apply strict_eq_eq in E, Hn. rewrite E, <- Hn. now apply in_map. }
    rewrite (others_all _ _ H).
    unfold ids. rewrite map_app. cbn [map].
    rewrite Hid, (strict_eq_eq _ _ E).
    apply Permutation_sym, Permutation_cons_append.
  - cbn [app ids map]. apply perm_skip.
    now apply IH.
Qed.

(** A request other than delete keeps "the ids are 1, ..., count". *)
Lemma handle_keeps_first_ids (r : Request) (s : Store) :
  is_DELETE r = false ->
  Permutation (ids s) (first_ids (List.length s)) ->
  Permutation (ids (store_after (handle r s)))
              (first_ids (List.length (store_after (handle r s)))).
Proof.
  intros Hr I.
  assert (ND : NoDup (ids s)).
  { apply (Permutation_NoDup (Permutation_sym I)), NoDup_first_ids. }
  assert (K : forall s', Permutation (ids s') (ids s) ->
              Permutation (ids s') (first_ids (List.length s'))).
  { intros s' P. pose proof (Permutation_length P) as L.
    unfold ids in L. rewrite !length_map in L. rewrite L.
    now transitivity (ids s). }
  destruct r as [body|id body|id body|id]; [| | |discriminate]; cbn [handle].
  - rewrite post_run. unfold store_after. cbn [snd].
    rewrite length_app. cbn [List.length]. rewrite Nat.add_1_r, first_ids_S.
    unfold ids. rewrite map_app. cbn [map Note.id].
    now apply Permutation_app_tail.
  - destruct (find (fun n => Note.id n === id) s) as [old|] eqn:F.
    + rewrite (put_found _ body _ _ F). apply K.
      now apply (ids_rebuilt id _ old).
    + rewrite (put_missing _ body _ F). exact I.
  - destruct (find (fun n => Note.id n === id) s) as [old|] eqn:F.
    + rewrite (patch_found _ body _ _ F). apply K.
      now apply (ids_rebuilt id _ old).
    + rewrite (patch_missing _ body _ F). exact I.
Qed.

(** As long as nothing is deleted, the ids of the store are 1, ..., count in
    some order, hence pairwise distinct. *)
Lemma ids_distinct_without_delete (rs : list Request) :
  forallb (fun r => negb (is_DELETE r)) rs = true ->
  NoDup (ids (store_after (serve rs []))).
Proof.
  intros H.
  enough (G : forall s,
    Permutation (ids s) (first_ids (List.length s)) ->
    Permutation (ids (store_after (serve rs s)))
                (first_ids (List.length (store_after (serve rs s))))).
  { apply (Permutation_NoDup (Permutation_sym (G [] (perm_nil _)))),
      NoDup_first_ids. }
  induction rs as [|r rs IH]; intros s I; [exact I|].
  cbn [forallb] in H. apply andb_true_iff in H. destruct H as [Hr H].
  rewrite serve_cons_store. apply (IH H).
  apply handle_keeps_first_ids; [|exact I].
  now destruct (is_DELETE r).
Qed.

(** A successful full or partial update keeps the id of the note it finds. *)
Lemma update_keeps_id (id : number) (body : Body) (s : Store) (old : Note) :
  response (getNoteById id s) = Some old ->
  (exists note,
     response (getNoteById id
       (store_after (NotesMitKommentaren.put id body s))) = Some note
     /\ Note.id note = Note.id old)
  /\ (exists note,
        response (getNoteById id
          (store_after (NotesMitKommentaren.patch id body s))) = Some note
        /\ Note.id note = Note.id old).
Proof.
  rewrite getNoteById_eq. cbn [response fst]. intros F.
  pose proof (found_self _ _ _ F) as self.
  rewrite (put_found _ body _ _ F), (patch_found _ body _ _ F).
  unfold store_after. cbn [snd]. rewrite !getNoteById_eq. cbn [fst].
  split; eexists; (split; [now apply rebuilt_lookup|]);
    symmetry; exact (found_id _ _ _ F).
Qed.

(** C1: the ids of a reachable store are not always distinct. Creating two
    notes, deleting the first and creating a third leaves two notes with the
    id 2. *)
Theorem ids_collide_after_delete :
  store_after (serve create_after_delete [])
  = [Note.new (Int 2) (Some "D"%string) (Some "E"%string) (Some "u1"%string);
     Note.new (Int 2) (Some "F"%string) (Some "G"%string) (Some "u2"%string)]
  /\ reachable (store_after (serve create_after_delete []))
  /\ ~ NoDup (map Note.id (store_after (serve create_after_delete []))).
Proof.
  split; [reflexivity|]. split; [now exists create_after_delete|].
  intros H. inversion H as [|x l Hx _]. apply Hx. now left.
Qed.

(* ------------------------------------------------------------------ *)
(** ** Reading by id *)

Lemma find_skips {A : Type} (p : A -> bool) (before after : list A) (x : A) :
  (forall m, In m before -> p m = false) ->
  p x = true ->
  find p (before ++ x :: after) = Some x.
Proof.
  intros Hb Hx. induction before as [|a l IH]; cbn [app find].
  - now rewrite Hx.
  - rewrite (Hb a (or_introl eq_refl)). apply IH.
    intros m Hm. apply Hb. now right.
Qed.


Lemma find_NaN (s : Store) : find (fun note => Note.id note === NaN) s = None.
Proof.
  induction s as [|a s IH]; cbn [find]; [reflexivity|].
  now rewrite strict_eq_NaN_r.
Qed.

(** X1: [GET /:id] of the commented router answers 200 with the first stored
    note of the id, whatever follows it in the store, and leaves the store as
    it was. *)
Theorem get_answers_first_note_of_the_id
    (id : number) (before after : list Note) (n : Note) :
  (forall m, In m before -> Note.id m === id = false) ->
  Note.id n === id = true ->
  NotesMitKommentaren.get id (before ++ n :: after)
  = (mkResponse 200 (SentNote n), before ++ n :: after).
Proof.
  intros Hb Hn.
  pose proof (find_skips (fun note => Note.id note === id) before after n
                Hb Hn) as F.
  unfold NotesMitKommentaren.get, bind, getNotes. now rewrite F.
Qed.

Lemma get_answers_first_note_of_the_id_witness :
  (forall m, In m [note_A] -> Note.id m === Int 2 = false)
  /\ Note.id note_C === Int 2 = true
  /\ NotesMitKommentaren.get (Int 2)
       ([note_A] ++ note_C :: [rebuilt (Int 2) body_A])
     = (mkResponse 200 (SentNote note_C),
        [note_A] ++ note_C :: [rebuilt (Int 2) body_A]).
Proof.
  assert (H : forall m, In m [note_A] -> Note.id m === Int 2 = false).
  { intros m [<-|[]]. reflexivity. }
  split; [exact H|]. split; [reflexivity|].
  exact (get_answers_first_note_of_the_id (Int 2) [note_A]
           [rebuilt (Int 2) body_A] note_C H eq_refl).
Defined.

(** X2: When no stored note has the id "count plus one", reading that id right
    after a create answers 200 with the note just created, carrying the
    fields of the request body. *)
Theorem post_then_get_reads_the_note_back (body : Body) (s : Store) :
  ~ holds s (Int (Z.of_nat (List.length s) + 1)) ->
  response (NotesMitKommentaren.get (Int (Z.of_nat (List.length s) + 1))
              (store_after (NotesMitKommentaren.post body s)))
  = mkResponse 200
      (SentNote (rebuilt (Int (Z.of_nat (List.length s) + 1)) body)).
Proof.
  intros H. rewrite post_run. unfold store_after. cbn [snd].
  unfold NotesMitKommentaren.get, bind, getNotes.
  rewrite find_app, (not_holds_find _ _ H). cbn [find Note.id].
  cbn [strict_eq]. now rewrite Z.eqb_refl.
Qed.

Lemma post_then_get_reads_the_note_back_witness :
  ~ holds [note_A] (Int (Z.of_nat (List.length [note_A]) + 1))
  /\ response (NotesMitKommentaren.get (Int 2)
                 (store_after (NotesMitKommentaren.post body_D [note_A])))
     = mkResponse 200 (SentNote (rebuilt (Int 2) body_D)).
Proof.
  assert (H : ~ holds [note_A] (Int (Z.of_nat (List.length [note_A]) + 1))).
  { intros (n & [<-|[]] & Hn). discriminate. }
  split; [exact H|].
  exact (post_then_get_reads_the_note_back body_D [note_A] H).
Defined.

(** X3: When a stored note already has the id "count plus one", a create still
    appends a note under that id: the ids are then no longer distinct, and
    reading the id keeps answering the older note, so the new note cannot be
    read by id. *)
Theorem post_under_a_taken_id_is_shadowed
    (body : Body) (s : Store) (old : Note) :
  response (getNoteById (Int (Z.of_nat (List.length s) + 1)) s) = Some old ->
  let s' := store_after (NotesMitKommentaren.post body s) in
  response (NotesMitKommentaren.get (Int (Z.of_nat (List.length s) + 1)) s')
  = mkResponse 200 (SentNote old)
  /\ In old s
  /\ s' = s ++ [rebuilt (Int (Z.of_nat (List.length s) + 1)) body]
  /\ ~ NoDup (ids s').
Proof.
  rewrite getNoteById_eq. cbn [response fst]. intros F. cbn zeta.
  rewrite post_run. unfold store_after. cbn [snd].
  pose proof (find_some _ _ F) as [Hin Hid].
  split; [|split; [exact Hin|split; [reflexivity|]]].
  - unfold NotesMitKommentaren.get, bind, getNotes.
    now rewrite find_app, F.
  - unfold ids. rewrite map_app. cbn [map Note.id]. intros ND.
    apply NoDup_remove_2 in ND. apply ND. rewrite app_nil_r.
    apply strict_eq_eq in Hid. rewrite <- Hid. now apply in_map.
Qed.

Lemma post_under_a_taken_id_is_shadowed_witness :
  response (getNoteById (Int (Z.of_nat (List.length taken_store) + 1))
              taken_store) = Some note_C
  /\ response (NotesMitKommentaren.get (Int 2)
                 (store_after (NotesMitKommentaren.post body_D taken_store)))
     = mkResponse 200 (SentNote note_C).
Proof.
  split; [reflexivity|].
  exact (proj1 (post_under_a_taken_id_is_shadowed body_D taken_store note_C
                  eq_refl)).
Defined.


(** X5: A path id that does not parse to a number is [NaN], which no stored id
    equals: whatever the store holds, reading, updating and deleting it
    answer 404 and leave the store as it was. *)
Theorem NaN_id_is_never_found
    (updateNote : number -> field -> field -> field -> IO unit)
    (deleteNoteById : number -> IO unit) (body : Body) (s : Store) :
  NotesMitKommentaren.get NaN s = (mkResponse 404 (WasNotFound NaN), s)
  /\ NotesRoutes.get NaN s = (mkResponse 404 (WurdeNichtGefunden NaN), s)
  /\ NotesMitKommentaren.put NaN body s
     = (mkResponse 404 (WurdeNichtGefunden NaN), s)
  /\ NotesMitKommentaren.patch NaN body s
     = (mkResponse 404 (WurdeNichtGefunden NaN), s)
  /\ NotesMitKommentaren.delete NaN s
     = (mkResponse 404 (WurdeNichtGefunden NaN), s)
  /\ NotesRoutes.put updateNote NaN body s
     = (mkResponse 404 (WurdeNichtGefunden NaN), s)
  /\ NotesRoutes.patch updateNote NaN body s
     = (mkResponse 404 (WurdeNichtGefunden NaN), s)
  /\ NotesRoutes.delete deleteNoteById NaN s
     = (mkResponse 404 (WurdeNichtGefunden NaN), s).
Proof.
  pose proof (find_NaN s) as F.
  repeat split;
    try (unfold NotesRoutes.get, NotesRoutes.put, NotesRoutes.patch,
           NotesRoutes.delete, bind; rewrite getNoteById_eq, F; reflexivity).
  - unfold NotesMitKommentaren.get, bind, getNotes. now rewrite F.
  - now apply put_missing.
  - now apply patch_missing.
  - now apply delete_missing.
Qed.

(* ------------------------------------------------------------------ *)
(** ** How updates and deletes compose *)

Lemma others_shorter (id : number) (s : Store) :
  holds s id -> (List.length (others id s) < List.length s)%nat.
Proof.
  intros (n & Hin & Hn). induction s as [|a s IH]; [destruct Hin|].
  change (others id (a :: s))
    with (if Note.id a !== id then a :: others id s else others id s).
  unfold strict_neq. destruct (Note.id a === id) eqn:E; cbn [negb List.length].
  - pose proof (filter_length_le (fun note => Note.id note !== id) s) as L.
    unfold others. lia.
  - destruct Hin as [->|Hin]; [congruence|]. specialize (IH Hin). lia.
Qed.

Lemma others_comm (i j : number) (s : Store) :
  others i (others j s) = others j (others i s).
Proof.
  unfold others. induction s as [|a s IH]; cbn [filter]; [reflexivity|].
  destruct (Note.id a !== j) eqn:Ej, (Note.id a !== i) eqn:Ei; cbn [filter];
    rewrite ?Ej, ?Ei, IH; reflexivity.
Qed.

Lemma others_snoc_other (i j : number) (s : Store) (note : Note) :
  Note.id note = i -> i <> j ->
  others j (s ++ [note]) = others j s ++ [note].
Proof.
  intros Hi Hij. unfold others. rewrite filter_app. cbn [filter].
  unfold strict_neq. rewrite Hi, (strict_eq_false_of_neq _ _ Hij).
  reflexivity.
Qed.

(** X6: Two updates of the same id in a row leave what the second one alone
    leaves: a full update after a full update is the later full update, and
    a partial update after a full update is the full update with the later
    body completed from the earlier one. *)
Theorem second_update_of_an_id_wins (id : number) (b1 b2 : Body) (s : Store) :
  holds s id ->
  let s1 := store_after (NotesMitKommentaren.put id b1 s) in
  NotesMitKommentaren.put id b2 s1 = NotesMitKommentaren.put id b2 s
  /\ NotesMitKommentaren.put id b1 s1 = NotesMitKommentaren.put id b1 s
  /\ NotesMitKommentaren.patch id b2 s1
     = NotesMitKommentaren.put id (completed b2 (rebuilt id b1)) s.
Proof.
  intros H. apply holds_find in H. destruct H as (old & F).
  pose proof (found_self _ _ _ F) as self. cbn zeta.
  rewrite (put_found _ b1 _ _ F). unfold store_after. cbn [snd].
  assert (F1 : find (fun note => Note.id note === id)
                 (others id s ++ [rebuilt id b1]) = Some (rebuilt id b1)).
  { now apply rebuilt_lookup. }
  assert (O : others id (others id s ++ [rebuilt id b1]) = others id s).
  { now apply rebuilt_others. }
  fold (rebuilt id b1).
  rewrite !(put_found _ _ _ _ F1), !(put_found _ _ _ _ F),
    (patch_found _ _ _ _ F1), O.
  repeat split.
Qed.

Lemma second_update_of_an_id_wins_witness :
  holds two_notes (Int 1)
  /\ NotesMitKommentaren.put (Int 1) body_D
       (store_after (NotesMitKommentaren.put (Int 1) body_C2 two_notes))
     = (mkResponse 204 NoContent, [note_C; rebuilt (Int 1) body_D]).
Proof.
  assert (H : holds two_notes (Int 1)).
  { exists note_A. split; [now left|reflexivity]. }
  split; [exact H|].
  rewrite (proj1 (second_update_of_an_id_wins (Int 1) body_C2 body_D
                    two_notes H)).
  reflexivity.
Defined.

(** X7: A partial update is the full update whose body has every omitted
    property filled in from the note the lookup finds, in both routers and
    whatever [updateNote] does. *)
Theorem patch_is_put_of_the_completed_body
    (updateNote : number -> field -> field -> field -> IO unit)
    (id : number) (body : Body) (s : Store) (old : Note) :
  response (getNoteById id s) = Some old ->
  NotesMitKommentaren.patch id body s
  = NotesMitKommentaren.put id (completed body old) s
  /\ NotesRoutes.patch updateNote id body s
     = NotesRoutes.put updateNote id (completed body old) s.
Proof.
  rewrite getNoteById_eq. cbn [response fst]. intros F. split.
  - now rewrite (patch_found _ body _ _ F), (put_found _ _ _ _ F).
  - unfold NotesRoutes.patch, NotesRoutes.put, bind.
    rewrite getNoteById_eq, F. reflexivity.
Qed.

Lemma patch_is_put_of_the_completed_body_witness :
  response (getNoteById (Int 1) two_notes) = Some note_A
  /\ NotesRoutes.patch forget4 (Int 1) body_C2 two_notes
     = NotesRoutes.put forget4 (Int 1)
         (mkBody (Some "A"%string) (Some "C2"%string) (Some "u1"%string))
         two_notes.
Proof.
  split; [reflexivity|].
  exact (proj2 (patch_is_put_of_the_completed_body forget4 (Int 1) body_C2
                  two_notes note_A eq_refl)).
Defined.

(** X8: When the store holds a note of the id, delete answers 204 and writes the
    stored notes of the other ids in their order: the store gets shorter,
    every other id looks up what it did before, and with distinct ids it is
    exactly the found note that is taken out. *)
Theorem delete_removes_only_the_notes_of_the_id (id : number) (s : Store) :
  holds s id ->
  let s' := store_after (NotesMitKommentaren.delete id s) in
  NotesMitKommentaren.delete id s
  = (mkResponse 204 NoContent, filter (fun note => Note.id note !== id) s)
  /\ (List.length s' < List.length s)%nat
  /\ (forall n, Note.id n <> id -> (In n s' <-> In n s))
  /\ (forall j, j <> id ->
        response (getNoteById j s') = response (getNoteById j s))
  /\ (NoDup (ids s) ->
      exists old before after,
        s = before ++ old :: after /\ s' = before ++ after).
Proof.
  intros H. pose proof (others_shorter _ _ H) as L.
  apply holds_find in H. destruct H as (old & F). cbn zeta.
  rewrite (delete_found _ _ _ F). unfold store_after. cbn [snd].
  split; [reflexivity|]. split; [exact L|]. split; [|split].
  - intros n Hn. unfold others. rewrite filter_In. unfold strict_neq.
    rewrite (strict_eq_false_of_neq _ _ Hn). cbn [negb]. tauto.
  - intros j Hj. rewrite !getNoteById_eq. cbn [response fst].
    apply find_others_other. congruence.
  - intros ND. destruct (others_split _ _ _ ND F) as (l1 & l2 & E1 & E2).
    now exists old, l1, l2.
Qed.

Lemma delete_removes_only_the_notes_of_the_id_witness :
  holds two_notes (Int 1)
  /\ NotesMitKommentaren.delete (Int 1) two_notes
     = (mkResponse 204 NoContent, [note_C]).
Proof.
  assert (H : holds two_notes (Int 1)).
  { exists note_A. split; [now left|reflexivity]. }
  split; [exact H|].
  rewrite (proj1 (delete_removes_only_the_notes_of_the_id (Int 1) two_notes H)).
  reflexivity.
Defined.

(** X9: A successful full or partial update never makes the store longer, and
    with distinct ids it keeps the number of notes; so the id the next
    create assigns is not moved by updates. *)
Theorem update_does_not_grow_the_store (id : number) (body : Body) (s : Store) :
  holds s id ->
  let s1 := store_after (NotesMitKommentaren.put id body s) in
  let s2 := store_after (NotesMitKommentaren.patch id body s) in
  (List.length s1 <= List.length s)%nat
  /\ (List.length s2 <= List.length s)%nat
  /\ (NoDup (ids s) ->
      List.length s1 = List.length s /\ List.length s2 = List.length s).
Proof.
  intros H. pose proof (others_shorter _ _ H) as L.
  apply holds_find in H. destruct H as (old & F). cbn zeta.
  rewrite (put_found _ body _ _ F), (patch_found _ body _ _ F).
  unfold store_after. cbn [snd]. rewrite !length_app. cbn [List.length].
  split; [lia|]. split; [lia|].
  intros ND. destruct (others_split _ _ _ ND F) as (l1 & l2 & E1 & E2).
  assert (Ls : List.length s = S (List.length l1 + List.length l2)).
  { rewrite E1, length_app. cbn [List.length]. lia. }
  rewrite E2, length_app. lia.
Qed.

Lemma update_does_not_grow_the_store_witness :
  holds two_notes (Int 2)
  /\ (List.length
        (store_after (NotesMitKommentaren.put (Int 2) body_A two_notes))
      <= List.length two_notes)%nat.
Proof.
  assert (H : holds two_notes (Int 2)).
  { exists note_C. split; [right; now left|reflexivity]. }
  split; [exact H|].
  exact (proj1 (update_does_not_grow_the_store (Int 2) body_A two_notes H)).
Defined.

(** X10: Full updates of two different stored ids commute up to the order of the
    two rebuilt notes at the end of the store: both orders leave the same
    other notes, and every id looks up the same note after either. *)
Theorem puts_of_different_ids_commute
    (i j : number) (bi bj : Body) (s : Store) :
  holds s i -> holds s j -> i <> j ->
  let ij := store_after (NotesMitKommentaren.put j bj
              (store_after (NotesMitKommentaren.put i bi s))) in
  let ji := store_after (NotesMitKommentaren.put i bi
              (store_after (NotesMitKommentaren.put j bj s))) in
  ij = others j (others i s) ++ [rebuilt i bi; rebuilt j bj]
  /\ ji = others j (others i s) ++ [rebuilt j bj; rebuilt i bi]
  /\ (forall k, response (getNoteById k ij) = response (getNoteById k ji)).
Proof.
  intros Hi Hj Hij. apply holds_find in Hi, Hj.
  destruct Hi as (oi & Fi). destruct Hj as (oj & Fj).
  pose proof (found_self _ _ _ Fi) as si.
  pose proof (found_self _ _ _ Fj) as sj.
  assert (Fj' : find (fun n => Note.id n === j) (others i s ++ [rebuilt i bi])
                = Some oj).
  { rewrite <- Fj. apply rebuilt_lookup_other; [reflexivity|congruence]. }
  assert (Fi' : find (fun n => Note.id n === i) (others j s ++ [rebuilt j bj])
                = Some oi).
  { rewrite <- Fi. apply rebuilt_lookup_other; [reflexivity|congruence]. }
  cbn zeta. rewrite (put_found _ bi _ _ Fi), (put_found _ bj _ _ Fj).
  unfold store_after. cbn [snd]. fold (rebuilt i bi) (rebuilt j bj).
  rewrite (put_found _ bj _ _ Fj'), (put_found _ bi _ _ Fi'). cbn [snd].
  fold (rebuilt i bi) (rebuilt j bj).
  rewrite (others_snoc_other i j) by (reflexivity || assumption).
  rewrite (others_snoc_other j i) by (reflexivity || congruence).
  rewrite (others_comm i j), <- !app_assoc. cbn [app].
  split; [reflexivity|]. split; [reflexivity|].
  intros k. rewrite !getNoteById_eq. cbn [response fst].
  rewrite !find_app.
  destruct (find (fun note => Note.id note === k) (others j (others i s)));
    [reflexivity|].
  cbn [find rebuilt Note.id].
  destruct (i === k) eqn:Ei, (j === k) eqn:Ej; try reflexivity.
  apply strict_eq_eq in Ei, Ej. congruence.
Qed.

Lemma puts_of_different_ids_commute_witness :
  holds two_notes (Int 1) /\ holds two_notes (Int 2) /\ Int 1 <> Int 2
  /\ store_after (NotesMitKommentaren.put (Int 2) body_D
       (store_after (NotesMitKommentaren.put (Int 1) body_A two_notes)))
     = [rebuilt (Int 1) body_A; rebuilt (Int 2) body_D].
Proof.
  assert (H1 : holds two_notes (Int 1)).
  { exists note_A. split; [now left|reflexivity]. }
  assert (H2 : holds two_notes (Int 2)).
  { exists note_C. split; [right; now left|reflexivity]. }
  assert (H3 : Int 1 <> Int 2) by discriminate.
  split; [exact H1|]. split; [exact H2|]. split; [exact H3|].
  rewrite (proj1 (puts_of_different_ids_commute (Int 1) (Int 2) body_A body_D
                    two_notes H1 H2 H3)).
  reflexivity.
Defined.

(* ------------------------------------------------------------------ *)
(** ** Listing after a write *)

Lemma get_all_sends_own (U : string) (s : Store) :
  sent_notes (response (NotesRoutes.get_all U s)) = own U s.
Proof. reflexivity. Qed.

Lemma own_others (U : string) (id : number) (s : Store) :
  own U (others id s) = others id (own U s).
Proof.
  unfold own, others. induction s as [|a s IH]; cbn [filter]; [reflexivity|].
  destruct (Note.id a !== id) eqn:Ei, (field_is (Note.user a) U) eqn:Eu;
    cbn [filter]; rewrite ?Ei, ?Eu, IH; reflexivity.
Qed.

Lemma own_snoc (U : string) (s : Store) (note : Note) :
  own U (s ++ [note])
  = own U s ++ (if field_is (Note.user note) U then [note] else []).
Proof.
  unfold own. rewrite filter_app. cbn [filter].
  now destruct (field_is (Note.user note) U).
Qed.

(** X11: The listing of a credential after a create is the listing before it,
    followed by the created note when the user of the body is that
    credential; a create without user, or for another user, leaves the
    listing as it was. *)
Theorem listing_after_post (U : string) (body : Body) (s : Store) :
  sent_notes (response (NotesRoutes.get_all U
    (store_after (NotesMitKommentaren.post body s))))
  = sent_notes (response (NotesRoutes.get_all U s))
    ++ (if field_is (body_user body) U
        then [rebuilt (Int (Z.of_nat (List.length s) + 1)) body]
        else []).
Proof.
  rewrite !get_all_sends_own, post_run. unfold store_after. cbn [snd].
  apply own_snoc.
Qed.

(** X12: The listing of a credential after a successful full update is the
    listing before it without the notes of the id, followed by the rebuilt
    note when the user of the body is that credential (so an update without
    user takes the note out of every listing); after a successful delete it
    is the listing before it without the notes of the id. *)
Theorem listing_after_put_and_delete
    (U : string) (id : number) (body : Body) (s : Store) :
  holds s id ->
  sent_notes (response (NotesRoutes.get_all U
    (store_after (NotesMitKommentaren.put id body s))))
  = others id (sent_notes (response (NotesRoutes.get_all U s)))
    ++ (if field_is (body_user body) U then [rebuilt id body] else [])
  /\ sent_notes (response (NotesRoutes.get_all U
       (store_after (NotesMitKommentaren.delete id s))))
     = others id (sent_notes (response (NotesRoutes.get_all U s))).
Proof.
  intros H. apply holds_find in H. destruct H as (old & F).
  rewrite !get_all_sends_own, (put_found _ body _ _ F), (delete_found _ _ _ F).
  unfold store_after. cbn [snd]. fold (rebuilt id body).
  now rewrite own_snoc, own_others.
Qed.

Lemma listing_after_put_and_delete_witness :
  holds two_notes (Int 1)
  /\ sent_notes (response (NotesRoutes.get_all "u1"
       (store_after (NotesMitKommentaren.put (Int 1) body_no_user two_notes))))
     = []
  /\ sent_notes (response (NotesRoutes.get_all "u2"
       (store_after (NotesMitKommentaren.delete (Int 1) two_notes))))
     = [note_C].
Proof.
  assert (H : holds two_notes (Int 1)).
  { exists note_A. split; [now left|reflexivity]. }
  split; [exact H|]. split.
  - rewrite (proj1 (listing_after_put_and_delete "u1" (Int 1) body_no_user
                      two_notes H)).
    reflexivity.
  - rewrite (proj2 (listing_after_put_and_delete "u2" (Int 1) body_no_user
                      two_notes H)).
    reflexivity.
Defined.

(* ------------------------------------------------------------------ *)
(** ** Ids over request sequences, continued *)

Lemma posts_cons (r : Request) (rs : list Request) :
  posts (r :: rs)
  = ((match r with POST _ => 1 | _ => 0 end) + posts rs)%nat.
Proof. unfold posts. cbn [filter]. now destruct r. Qed.

Lemma others_bounded (p : nat) (id : number) (s : Store) :
  bounded_by p s -> bounded_by p (others id s).
Proof.
  intros [L B]. split.
  - pose proof (filter_length_le (fun note => Note.id note !== id) s).
    unfold others. lia.
  - intros note Hin. apply B. unfold others in Hin.
    now apply filter_In in Hin.
Qed.

Lemma rebuilt_bounded (p : nat) (id : number) (old note : Note) (s : Store) :
  bounded_by p s ->
  find (fun n => Note.id n === id) s = Some old ->
  Note.id note = id ->
  bounded_by p (others id s ++ [note]).
Proof.
  intros [L B] F Hid.
  assert (H : holds s id) by (apply holds_find; now exists old).
  pose proof (others_shorter _ _ H) as Sh. split.
  - rewrite length_app. cbn [List.length]. lia.
  - intros n Hin. apply in_app_iff in Hin. destruct Hin as [Hin|[<-|[]]].
    + apply B. unfold others in Hin. now apply filter_In in Hin.
    + rewrite Hid, <- (found_id _ _ _ F). apply B.
      now apply (find_some _ _ F).
Qed.

Lemma handle_bounded (p : nat) (r : Request) (s : Store) :
  bounded_by p s ->
  bounded_by (match r with POST _ => 1 | _ => 0 end + p)
             (store_after (handle r s)).
Proof.
  intros I. destruct r as [body|id body|id body|id]; cbn [handle Nat.add].
  - destruct I as [L B]. rewrite post_run. unfold store_after. cbn [snd].
    split.
    + rewrite length_app. cbn [List.length]. lia.
    + intros n Hin. apply in_app_iff in Hin. destruct Hin as [Hin|[<-|[]]].
      * destruct (B n Hin) as (z & Hz & Hb). exists z. split; [exact Hz|lia].
      * eexists. split; [reflexivity|]. lia.
  - destruct (find (fun n => Note.id n === id) s) as [old|] eqn:F.
    + rewrite (put_found _ body _ _ F). now apply (rebuilt_bounded p id old).
    + now rewrite (put_missing _ body _ F).
  - destruct (find (fun n => Note.id n === id) s) as [old|] eqn:F.
    + rewrite (patch_found _ body _ _ F). now apply (rebuilt_bounded p id old).
    + now rewrite (patch_missing _ body _ F).
  - destruct (find (fun n => Note.id n === id) s) as [old|] eqn:F.
    + rewrite (delete_found _ _ _ F). now apply others_bounded.
    + now rewrite (delete_missing _ _ F).
Qed.

Lemma serve_bounded (rs : list Request) (p : nat) (s : Store) :
  bounded_by p s -> bounded_by (posts rs + p) (store_after (serve rs s)).
Proof.
  revert p s. induction rs as [|r rs IH]; intros p s I; [exact I|].
  rewrite serve_cons_store, posts_cons.
  replace (match r with POST _ => 1 | _ => 0 end + posts rs + p)%nat
    with (posts rs + (match r with POST _ => 1 | _ => 0 end + p))%nat by lia.
  apply IH. now apply handle_bounded.
Qed.

(** X13: Whatever requests are served from the empty collection, the store never
    has more notes than there were creates, and every stored id is an
    integer between 1 and the number of creates: never [NaN], zero or
    negative. *)
Theorem reachable_ids_are_bounded_by_the_creates (rs : list Request) :
  (List.length (store_after (serve rs [])) <= posts rs)%nat
  /\ forall note, In note (store_after (serve rs [])) ->
       exists z, Note.id note = Int z /\ 1 <= z <= Z.of_nat (posts rs).
Proof.
  assert (I : bounded_by 0 []).
  { split; [reflexivity|]. intros note []. }
  pose proof (serve_bounded rs 0 [] I) as B.
  rewrite Nat.add_0_r in B. exact B.
Qed.

Lemma reachable_ids_are_bounded_by_the_creates_witness :
  In (rebuilt (Int 2) body_F) (store_after (serve create_after_delete []))
  /\ exists z, Note.id (rebuilt (Int 2) body_F) = Int z
               /\ 1 <= z <= Z.of_nat (posts create_after_delete).
Proof.
  assert (H : In (rebuilt (Int 2) body_F)
                (store_after (serve create_after_delete []))).
  { right. now left. }
  split; [exact H|].
  exact (proj2 (reachable_ids_are_bounded_by_the_creates create_after_delete)
           _ H).
Defined.

Lemma others_length_distinct (id : number) (old : Note) (s : Store) :
  NoDup (ids s) ->
  find (fun n => Note.id n === id) s = Some old ->
  S (List.length (others id s)) = List.length s.
Proof.
  intros ND F. destruct (others_split _ _ _ ND F) as (l1 & l2 & E1 & E2).
  assert (Ls : List.length s = S (List.length l1 + List.length l2)).
  { rewrite E1, length_app. cbn [List.length]. lia. }
  rewrite E2, length_app. lia.
Qed.

Lemma NoDup_snoc_held (s : Store) (note : Note) :
  holds s (Note.id note) -> ~ NoDup (ids (s ++ [note])).
Proof.
  intros (n & Hin & Hn) ND. unfold ids in ND. rewrite map_app in ND.
  cbn [map] in ND. apply NoDup_remove_2 in ND. apply ND.
  rewrite app_nil_r. apply strict_eq_eq in Hn. rewrite <- Hn.
  now apply in_map.
Qed.

Lemma handle_length_without_delete (r : Request) (s : Store) :
  is_DELETE r = false ->
  NoDup (ids s) ->
  List.length (store_after (handle r s))
  = (match r with POST _ => 1 | _ => 0 end + List.length s)%nat.
Proof.
  intros Hr ND.
  destruct r as [body|id body|id body|id]; [| | |discriminate]; cbn [handle].
  - rewrite post_run. unfold store_after. cbn [snd].
    rewrite length_app. cbn [List.length]. lia.
  - destruct (find (fun n => Note.id n === id) s) as [old|] eqn:F.
    + rewrite (put_found _ body _ _ F). unfold store_after. cbn [snd].
      rewrite length_app, <- (others_length_distinct _ _ _ ND F).
      cbn [List.length]. lia.
    + now rewrite (put_missing _ body _ F).
  - destruct (find (fun n => Note.id n === id) s) as [old|] eqn:F.
    + rewrite (patch_found _ body _ _ F). unfold store_after. cbn [snd].
      rewrite length_app, <- (others_length_distinct _ _ _ ND F).
      cbn [List.length]. lia.
    + now rewrite (patch_missing _ body _ F).
Qed.

Lemma serve_counts_up (rs : list Request) (s : Store) :
  forallb (fun r => negb (is_DELETE r)) rs = true ->
  Permutation (ids s) (first_ids (List.length s)) ->
  Permutation (ids (store_after (serve rs s)))
              (first_ids (List.length (store_after (serve rs s))))
  /\ List.length (store_after (serve rs s)) = (posts rs + List.length s)%nat.
Proof.
  revert s. induction rs as [|r rs IH]; intros s H I.
  - split; [exact I|reflexivity].
  - cbn [forallb] in H. apply andb_true_iff in H. destruct H as [Hr H].
    assert (Hr' : is_DELETE r = false) by now destruct (is_DELETE r).
    assert (ND : NoDup (ids s)).
    { apply (Permutation_NoDup (Permutation_sym I)), NoDup_first_ids. }
    rewrite serve_cons_store, posts_cons.
    destruct (IH _ H (handle_keeps_first_ids r s Hr' I)) as [P L].
    split; [exact P|].
    rewrite L, (handle_length_without_delete r s Hr' ND). lia.
Qed.

Lemma first_ids_below (n : nat) (z : Z) :
  In (Int z) (first_ids n) -> 1 <= z <= Z.of_nat n.
Proof.
  unfold first_ids. rewrite in_map_iff. intros (k & E & Hk).
  apply in_seq in Hk. injection E as <-. lia.
Qed.

(** X14: As long as no request is a delete, the stored ids are 1, ..., count in
    some order, the count is the number of creates, and the id the next
    create would assign is held by no stored note. *)
Theorem ids_count_up_without_delete (rs : list Request) :
  forallb (fun r => negb (is_DELETE r)) rs = true ->
  let s := store_after (serve rs []) in
  Permutation (ids s) (first_ids (List.length s))
  /\ List.length s = posts rs
  /\ ~ holds s (Int (Z.of_nat (List.length s) + 1)).
Proof.
  intros H. cbn zeta.
  destruct (serve_counts_up rs [] H (perm_nil _)) as [P L].
  split; [exact P|]. split; [cbn [List.length] in L; lia|].
  intros (n & Hin & Hn). apply strict_eq_eq in Hn.
  assert (K : In (Int (Z.of_nat (List.length (store_after (serve rs []))) + 1))
                (first_ids (List.length (store_after (serve rs []))))).
  { apply (Permutation_in _ P). rewrite <- Hn. now apply in_map. }
  apply first_ids_below in K. lia.
Qed.

Lemma ids_count_up_without_delete_witness :
  forallb (fun r => negb (is_DELETE r))
    [POST body_A; POST body_D; PUT (Int 1) body_F] = true
  /\ Permutation
       (ids (store_after (serve [POST body_A; POST body_D; PUT (Int 1) body_F]
                            [])))
       (first_ids 2).
Proof.
  split; [reflexivity|].
  exact (proj1 (ids_count_up_without_delete
                  [POST body_A; POST body_D; PUT (Int 1) body_F] eq_refl)).
Defined.

(** X15: In a store with distinct ids that holds the id equal to its count,
    deleting any other stored id and then creating a note gives the new note
    that same id: the create after a delete reuses an id that is still
    stored, and the ids are no longer distinct. *)
Theorem create_after_delete_reuses_a_stored_id
    (k : number) (body : Body) (s : Store) :
  NoDup (ids s) ->
  holds s k ->
  holds s (Int (Z.of_nat (List.length s))) ->
  k <> Int (Z.of_nat (List.length s)) ->
  let s1 := store_after (NotesMitKommentaren.delete k s) in
  let s2 := store_after (NotesMitKommentaren.post body s1) in
  s2 = others k s ++ [rebuilt (Int (Z.of_nat (List.length s))) body]
  /\ holds s1 (Int (Z.of_nat (List.length s)))
  /\ ~ NoDup (ids s2).
Proof.
  intros ND Hk Hlast Hne. apply holds_find in Hk. destruct Hk as (old & F).
  cbn zeta. rewrite (delete_found _ _ _ F). unfold store_after. cbn [snd].
  rewrite post_run. cbn [snd].
  assert (E : Int (Z.of_nat (List.length (others k s)) + 1)
              = Int (Z.of_nat (List.length s))).
  { rewrite <- (others_length_distinct _ _ _ ND F). f_equal. lia. }
  rewrite E. fold (rebuilt (Int (Z.of_nat (List.length s))) body).
  assert (Hl : holds (others k s) (Int (Z.of_nat (List.length s)))).
  { destruct Hlast as (n & Hin & Hn). exists n. split; [|exact Hn].
    unfold others. apply filter_In. split; [exact Hin|].
    unfold strict_neq. rewrite strict_eq_false_of_neq; [reflexivity|].
    apply strict_eq_eq in Hn. congruence. }
  split; [reflexivity|]. split; [exact Hl|].
  now apply NoDup_snoc_held.
Qed.

Lemma create_after_delete_reuses_a_stored_id_witness :
  NoDup (ids two_notes)
  /\ holds two_notes (Int 1)
  /\ holds two_notes (Int (Z.of_nat (List.length two_notes)))
  /\ Int 1 <> Int (Z.of_nat (List.length two_notes))
  /\ store_after (NotesMitKommentaren.post body_F
       (store_after (NotesMitKommentaren.delete (Int 1) two_notes)))
     = [note_C; rebuilt (Int 2) body_F].
Proof.
  assert (H0 : NoDup (ids two_notes)).
  { constructor; [intros [H|[]]; discriminate|].
    constructor; [intros []|constructor]. }
  assert (H1 : holds two_notes (Int 1)).
  { exists note_A. split; [now left|reflexivity]. }
  assert (H2 : holds two_notes (Int (Z.of_nat (List.length two_notes)))).
  { exists note_C. split; [right; now left|reflexivity]. }
  assert (H3 : Int 1 <> Int (Z.of_nat (List.length two_notes))).
  { discriminate. }
  split; [exact H0|]. split; [exact H1|]. split; [exact H2|].
  split; [exact H3|].
  rewrite (proj1 (create_after_delete_reuses_a_stored_id (Int 1) body_F
                    two_notes H0 H1 H2 H3)).
  reflexivity.
Defined.
